(** * download.py: the CivitAI model fetcher

    A shallow embedding of [src/download.py] and the properties of its
    command-line contract.  The script is a straight line of two input
    checks, one metadata request and one delegated download; its
    interaction with the outside (standard output, the HTTP library, the
    child process) is modelled as a script of events run against a
    world that answers them. *)

From Stdlib Require Import ZArith NArith Ascii String List Bool Lia.
From stdpp Require Import base option list strings gmap.
Import ListNotations.

Local Open Scope Z_scope.

(** ** Python strings *)

(** A Python [str] is a sequence of Unicode code points. *)
Definition codepoint : Type := N.
Definition pystr : Type := list codepoint.

(** A string literal of the source; all of them are ASCII. *)
Definition lit (s : string) : pystr :=
  List.map N_of_ascii (list_ascii_of_string s).

(** The code points [c] with [chr(c).isdigit()], as inclusive ranges: the
    characters of Numeric_Type Digit or Decimal in the Unicode database of
    the interpreter (Unicode 14.0.0, CPython 3.11). *)
Definition digit_ranges : list (N * N) :=
  [ (48, 57); (178, 179); (185, 185); (1632, 1641); (1776, 1785);
    (1984, 1993); (2406, 2415); (2534, 2543); (2662, 2671); (2790, 2799);
    (2918, 2927); (3046, 3055); (3174, 3183); (3302, 3311); (3430, 3439);
    (3558, 3567); (3664, 3673); (3792, 3801); (3872, 3881); (4160, 4169);
    (4240, 4249); (4969, 4977); (6112, 6121); (6160, 6169); (6470, 6479);
    (6608, 6618); (6784, 6793); (6800, 6809); (6992, 7001); (7088, 7097);
    (7232, 7241); (7248, 7257); (8304, 8304); (8308, 8313); (8320, 8329);
    (9312, 9320); (9332, 9340); (9352, 9360); (9450, 9450); (9461, 9469);
    (9471, 9471); (10102, 10110); (10112, 10120); (10122, 10130);
    (42528, 42537); (43216, 43225); (43264, 43273); (43472, 43481);
    (43504, 43513); (43600, 43609); (44016, 44025); (65296, 65305);
    (66720, 66729); (68160, 68163); (68912, 68921); (69216, 69224);
    (69714, 69722); (69734, 69743); (69872, 69881); (69942, 69951);
    (70096, 70105); (70384, 70393); (70736, 70745); (70864, 70873);
    (71248, 71257); (71360, 71369); (71472, 71481); (71904, 71913);
    (72016, 72025); (72784, 72793); (73040, 73049); (73120, 73129);
    (92768, 92777); (92864, 92873); (93008, 93017); (120782, 120831);
    (123200, 123209); (123632, 123641); (125264, 125273);
    (127232, 127242); (130032, 130041) ]%N.

Definition in_range (c : codepoint) (r : N * N) : bool :=
  (fst r <=? c)%N && (c <=? snd r)%N.

(** One character with the digit property. *)
Definition isdigit_char (c : codepoint) : bool :=
  existsb (in_range c) digit_ranges.

(** [str.isdigit()]: true when the string has at least one character and
    all of its characters are digits. *)
Definition isdigit (s : pystr) : bool :=
  match s with
  | [] => false
  | _ :: _ => forallb isdigit_char s
  end.

(** One of the ten ASCII digits [0-9]. *)
Definition ascii_digit (c : codepoint) : bool :=
  (48 <=? c)%N && (c <=? 57)%N.

(** The strings of the regular expression [^[0-9]+$] as the contract
    reads it: non-empty, made of ASCII digits only. *)
Definition matches_digits_regex (s : pystr) : bool :=
  match s with
  | [] => false
  | _ :: _ => forallb ascii_digit s
  end.

(** Truth value of an optional string, as [if not token] tests it:
    [None] and the empty string are false. *)
Definition truthy (o : option pystr) : bool :=
  match o with
  | None => false
  | Some [] => false
  | Some (_ :: _) => true
  end.

(** What an f-string interpolates for [{token}]. *)
Definition format (o : option pystr) : pystr :=
  match o with
  | None => lit "None"
  | Some s => s
  end.

(** ** Command line and environment *)

(** The namespace [parser.parse_args()] returns: [--model] is required,
    [--token] is [None] when absent. *)
Module args.
Record t : Type := mk { model : pystr; token : option pystr }.
End args.

(** [os.getenv(key, default)]: the value of the variable when it is set
    (the empty string included), otherwise the default. *)
Definition getenv (environ : gmap string pystr) (key : string)
    (default : option pystr) : option pystr :=
  match environ !! key with
  | Some v => Some v
  | None => default
  end.

(** ** Events, scripts and worlds *)

Record Response : Type := { status_code : Z }.
Record CompletedProcess : Type := { returncode : Z }.

(** A library call either returns or raises. *)
Inductive reply (A : Type) : Type :=
| Returns (a : A)
| Raises (exn : string).
Arguments Returns {A} a.
Arguments Raises {A} exn.

(** What the process does to the outside, in order. *)
Inductive event : Type :=
| EPrint (msg : pystr)           (* print(msg) *)
| EGet (url : pystr)             (* requests.get(url, stream=True) *)
| ERun (argv : list pystr).      (* subprocess.run(argv, check=False) *)

(** The module body as a tree of effects.  [Done] is falling off the end
    of the module. *)
Inductive script : Type :=
| Print (msg : pystr) (k : script)
| Exit (code : Z)
| Get (url : pystr) (k : Response -> script)
| Run (argv : list pystr) (k : CompletedProcess -> script)
| Done.

(** How a run ends: [sys.exit(code)] or the end of the module, or an
    exception nobody catches. *)
Inductive outcome : Type :=
| Exited (code : Z)
| Uncaught (exn : string).

(** The exit status the script sets: the argument of [sys.exit], or 0 at
    the end of the module.  After an uncaught exception the script sets
    none: how the process ends is then up to the interpreter and depends
    on the exception (status 1 after a traceback for most, death by
    SIGINT for [KeyboardInterrupt], the carried code for [SystemExit]). *)
Definition exit_code (o : outcome) : option Z :=
  match o with
  | Exited c => Some c
  | Uncaught _ => None
  end.

(** The outside: the answer of the metadata server and of the child
    process. *)
Record world : Type := {
  requests_get : pystr -> reply Response;
  subprocess_run : list pystr -> reply CompletedProcess
}.

Fixpoint exec (w : world) (p : script) : list event * outcome :=
  match p with
  | Print msg k =>
      let '(tr, o) := exec w k in (EPrint msg :: tr, o)
  | Exit code => ([], Exited code)
  | Get u k =>
      match requests_get w u with
      | Returns r => let '(tr, o) := exec w (k r) in (EGet u :: tr, o)
      | Raises e => ([EGet u], Uncaught e)
      end
  | Run argv k =>
      match subprocess_run w argv with
      | Returns r => let '(tr, o) := exec w (k r) in (ERun argv :: tr, o)
      | Raises e => ([ERun argv], Uncaught e)
      end
  | Done => ([], Exited 0)
  end.

(** Projections of a trace. *)
Definition prints (tr : list event) : list pystr :=
  omap (fun e => match e with EPrint m => Some m | _ => None end) tr.
Definition gets (tr : list event) : list pystr :=
  omap (fun e => match e with EGet u => Some u | _ => None end) tr.
Definition invocations (tr : list event) : list (list pystr) :=
  omap (fun e => match e with ERun a => Some a | _ => None end) tr.

(** ** The program *)

(** The four failures of the contract and the message each one prints. *)
Inductive error_kind : Type :=
| InvalidInput
| MissingCredential
| MetadataLookupFailed
| DownloadFailed.

Definition message (e : error_kind) : pystr :=
  match e with
  | InvalidInput => lit "Error: model ID must be numeric."
  | MissingCredential =>
      lit "Error: no token provided. Set the 'civitai_token' environment variable or use --token."
  | MetadataLookupFailed => lit "Error: Failed to retrieve model metadata."
  | DownloadFailed => lit "Error: wget download failed."
  end.

Section Program.
Variable a : args.t.
Variable environ : gmap string pystr.

(** Line 15. *)
Definition token : option pystr :=
  getenv environ "civitai_token" (args.token a).

(** Line 26. *)
Definition url : pystr :=
  lit "https://civitai.com/api/v1/model-versions/" ++ args.model a.

(** Line 31. *)
Definition download_url : pystr :=
  lit "https://civitai.com/api/download/models/" ++ args.model a
    ++ lit "?type=Model&format=SafeTensor&token=" ++ format token.

(** Lines 15 to 38. *)
Definition main : script :=
  if negb (isdigit (args.model a)) then
    Print (message InvalidInput) (Exit 1)
  else if negb (truthy token) then
    Print (message MissingCredential) (Exit 1)
  else
    Get url (fun response =>
      if status_code response =? 200 then
        Run [lit "wget"; download_url; lit "--content-disposition"]
          (fun result =>
             if negb (returncode result =? 0) then
               Print (message DownloadFailed) (Exit 1)
             else Done)
      else
        Print (message MetadataLookupFailed) (Exit 1)).
End Program.

(** A whole invocation: the trace and how it ends. *)
Definition invoke (w : world) (a : args.t) (environ : gmap string pystr)
    : list event * outcome :=
  exec w (main a environ).

(** The model check turned the invocation down: the run is the
    [InvalidInput] message followed by [sys.exit(1)]. *)
Definition rejects_model (w : world) (a : args.t)
    (environ : gmap string pystr) : Prop :=
  invoke w a environ = ([EPrint (message InvalidInput)], Exited 1).

(** A world whose server always answers [status] and whose child process
    always ends with [rc]. *)
Definition constant_world (status rc : Z) : world :=
  {| requests_get := fun _ => Returns {| status_code := status |};
     subprocess_run := fun _ => Returns {| returncode := rc |} |}.

(** The command line of the download tool (line 32). *)
Definition wget_argv (a : args.t) (environ : gmap string pystr)
    : list pystr :=
  [lit "wget"; download_url a environ; lit "--content-disposition"].

(** The ways a run can go, one per path through the module. *)
Inductive run_shape (w : world) (a : args.t) (environ : gmap string pystr)
    : list event * outcome -> Prop :=
| shape_invalid :
    isdigit (args.model a) = false ->
    run_shape w a environ ([EPrint (message InvalidInput)], Exited 1)
| shape_missing :
    isdigit (args.model a) = true -> truthy (token a environ) = false ->
    run_shape w a environ ([EPrint (message MissingCredential)], Exited 1)
| shape_probe_raises exn :
    isdigit (args.model a) = true -> truthy (token a environ) = true ->
    requests_get w (url a) = Raises exn ->
    run_shape w a environ ([EGet (url a)], Uncaught exn)
| shape_lookup_failed response :
    isdigit (args.model a) = true -> truthy (token a environ) = true ->
    requests_get w (url a) = Returns response ->
    status_code response <> 200 ->
    run_shape w a environ
      ([EGet (url a); EPrint (message MetadataLookupFailed)], Exited 1)
| shape_wget_raises response exn :
    isdigit (args.model a) = true -> truthy (token a environ) = true ->
    requests_get w (url a) = Returns response ->
    status_code response = 200 ->
    subprocess_run w (wget_argv a environ) = Raises exn ->
    run_shape w a environ
      ([EGet (url a); ERun (wget_argv a environ)], Uncaught exn)
| shape_download_failed response result :
    isdigit (args.model a) = true -> truthy (token a environ) = true ->
    requests_get w (url a) = Returns response ->
    status_code response = 200 ->
    subprocess_run w (wget_argv a environ) = Returns result ->
    returncode result <> 0 ->
    run_shape w a environ
      ([EGet (url a); ERun (wget_argv a environ);
        EPrint (message DownloadFailed)], Exited 1)
| shape_success response result :
    isdigit (args.model a) = true -> truthy (token a environ) = true ->
    requests_get w (url a) = Returns response ->
    status_code response = 200 ->
    subprocess_run w (wget_argv a environ) = Returns result ->
    returncode result = 0 ->
    run_shape w a environ
      ([EGet (url a); ERun (wget_argv a environ)], Exited 0).

Arguments lit : simpl never.

(** * Properties *)

(** ** Strings and digits *)

Lemma message_inj e1 e2 : message e1 = message e2 -> e1 = e2.
Proof. destruct e1, e2; intros H; try reflexivity; vm_compute in H; discriminate. Qed.

Lemma isdigit_spec s :
  isdigit s = true <-> s <> [] /\ Forall (fun c => isdigit_char c = true) s.
Proof.
  destruct s as [|c s].
  - split; [discriminate | intros [H _]; congruence].
  - unfold isdigit. rewrite forallb_forall, List.Forall_forall.
    split; [intros H; split; [discriminate | exact H] | intros [_ H]; exact H].
Qed.

Lemma matches_digits_regex_spec s :
  matches_digits_regex s = true <->
  s <> [] /\ Forall (fun c => ascii_digit c = true) s.
Proof.
  destruct s as [|c s].
  - split; [discriminate | intros [H _]; congruence].
  - unfold matches_digits_regex. rewrite forallb_forall, List.Forall_forall.
    split; [intros H; split; [discriminate | exact H] | intros [_ H]; exact H].
Qed.

(** Below 128 the digit class is exactly [0-9]. *)
Lemma isdigit_char_ascii c :
  (c < 128)%N -> isdigit_char c = ascii_digit c.
Proof.
  intros Hc.
  assert (Hall : forallb (fun n => Bool.eqb (isdigit_char (N.of_nat n))
                                     (ascii_digit (N.of_nat n)))
                   (seq 0 128) = true) by (vm_compute; reflexivity).
  rewrite forallb_forall in Hall.
  specialize (Hall (N.to_nat c)).
  rewrite N2Nat.id in Hall.
  apply Bool.eqb_prop, Hall, in_seq. lia.
Qed.

Lemma ascii_digit_isdigit_char c : ascii_digit c = true -> isdigit_char c = true.
Proof.
  intros H. rewrite isdigit_char_ascii; [exact H |].
  unfold ascii_digit in H. apply andb_prop in H as [_ H].
  apply N.leb_le in H. lia.
Qed.

Lemma matches_digits_regex_isdigit s :
  matches_digits_regex s = true -> isdigit s = true.
Proof.
  rewrite matches_digits_regex_spec, isdigit_spec. intros [Hne Hall].
  split; [exact Hne |].
  eapply List.Forall_impl; [| exact Hall]. apply ascii_digit_isdigit_char.
Qed.

Lemma isdigit_ascii_matches s :
  Forall (fun c => (c < 128)%N) s ->
  isdigit s = true -> matches_digits_regex s = true.
Proof.
  rewrite matches_digits_regex_spec, isdigit_spec. intros Hascii [Hne Hall].
  split; [exact Hne |].
  rewrite List.Forall_forall in *. intros c Hc.
  rewrite <- isdigit_char_ascii; auto.
Qed.

(** ** The token *)

Lemma token_env_set a environ e :
  environ !! "civitai_token" = Some e -> token a environ = Some e.
Proof. intros H. unfold token, getenv. rewrite H. reflexivity. Qed.

Lemma token_env_unset a environ :
  environ !! "civitai_token" = None -> token a environ = args.token a.
Proof. intros H. unfold token, getenv. rewrite H. reflexivity. Qed.

Lemma truthy_Some tok : tok <> [] -> truthy (Some tok) = true.
Proof. destruct tok; [congruence | reflexivity]. Qed.

Lemma truthy_inv o : truthy o = true -> exists tok, o = Some tok /\ tok <> [].
Proof.
  destruct o as [[|c tok]|]; try discriminate.
  intros _. exists (c :: tok). split; [reflexivity | discriminate].
Qed.

(** ** The five ways a run can go *)

Section Runs.
Variable w : world.
Variable a : args.t.
Variable environ : gmap string pystr.

Lemma run_invalid :
  isdigit (args.model a) = false ->
  invoke w a environ = ([EPrint (message InvalidInput)], Exited 1).
Proof. intros Hm. unfold invoke, main. rewrite Hm. reflexivity. Qed.

Lemma run_missing :
  isdigit (args.model a) = true -> truthy (token a environ) = false ->
  invoke w a environ = ([EPrint (message MissingCredential)], Exited 1).
Proof. intros Hm Ht. unfold invoke, main. rewrite Hm, Ht. reflexivity. Qed.

Lemma run_probe_raises exn :
  isdigit (args.model a) = true -> truthy (token a environ) = true ->
  requests_get w (url a) = Raises exn ->
  invoke w a environ = ([EGet (url a)], Uncaught exn).
Proof.
  intros Hm Ht Hg. unfold invoke, main. rewrite Hm, Ht. cbn [negb exec].
  rewrite Hg. reflexivity.
Qed.

Lemma run_lookup_failed response :
  isdigit (args.model a) = true -> truthy (token a environ) = true ->
  requests_get w (url a) = Returns response ->
  status_code response <> 200 ->
  invoke w a environ =
    ([EGet (url a); EPrint (message MetadataLookupFailed)], Exited 1).
Proof.
  intros Hm Ht Hg Hs. unfold invoke, main. rewrite Hm, Ht. cbn [negb exec].
  rewrite Hg. apply Z.eqb_neq in Hs. rewrite Hs. reflexivity.
Qed.

Lemma run_wget_raises response exn :
  isdigit (args.model a) = true -> truthy (token a environ) = true ->
  requests_get w (url a) = Returns response ->
  status_code response = 200 ->
  subprocess_run w (wget_argv a environ) = Raises exn ->
  invoke w a environ = ([EGet (url a); ERun (wget_argv a environ)], Uncaught exn).
Proof.
  intros Hm Ht Hg Hs Hr. unfold invoke, main. rewrite Hm, Ht. cbn [negb exec].
  rewrite Hg, Hs. cbn [Z.eqb Pos.eqb exec]. fold (wget_argv a environ). rewrite Hr. reflexivity.
Qed.

Lemma run_download_failed response result :
  isdigit (args.model a) = true -> truthy (token a environ) = true ->
  requests_get w (url a) = Returns response ->
  status_code response = 200 ->
  subprocess_run w (wget_argv a environ) = Returns result ->
  returncode result <> 0 ->
  invoke w a environ =
    ([EGet (url a); ERun (wget_argv a environ); EPrint (message DownloadFailed)], Exited 1).
Proof.
  intros Hm Ht Hg Hs Hr Hc. unfold invoke, main. rewrite Hm, Ht. cbn [negb exec].
  rewrite Hg, Hs. cbn [Z.eqb Pos.eqb exec]. fold (wget_argv a environ). rewrite Hr.
  apply Z.eqb_neq in Hc. rewrite Hc. reflexivity.
Qed.

Lemma run_success response result :
  isdigit (args.model a) = true -> truthy (token a environ) = true ->
  requests_get w (url a) = Returns response ->
  status_code response = 200 ->
  subprocess_run w (wget_argv a environ) = Returns result ->
  returncode result = 0 ->
  invoke w a environ = ([EGet (url a); ERun (wget_argv a environ)], Exited 0).
Proof.
  intros Hm Ht Hg Hs Hr Hc. unfold invoke, main. rewrite Hm, Ht. cbn [negb exec].
  rewrite Hg, Hs. cbn [Z.eqb Pos.eqb exec]. fold (wget_argv a environ). rewrite Hr, Hc.
  reflexivity.
Qed.

(** Every run is one of these. *)
Lemma invoke_shape : run_shape w a environ (invoke w a environ).
Proof.
  destruct (isdigit (args.model a)) eqn:Hm;
    [| rewrite run_invalid by assumption; constructor; assumption].
  destruct (truthy (token a environ)) eqn:Ht;
    [| rewrite run_missing by assumption; constructor; assumption].
  destruct (requests_get w (url a)) as [response|exn] eqn:Hg;
    [| erewrite run_probe_raises by eassumption; constructor; assumption].
  destruct (Z.eq_dec (status_code response) 200) as [Hs|Hs];
    [| erewrite run_lookup_failed by eassumption; econstructor; eassumption].
  destruct (subprocess_run w (wget_argv a environ)) as [result|exn] eqn:Hr;
    [| erewrite run_wget_raises by eassumption; econstructor; eassumption].
  destruct (Z.eq_dec (returncode result) 0) as [Hc|Hc].
  - erewrite run_success by eassumption. econstructor; eassumption.
  - erewrite run_download_failed by eassumption. econstructor; eassumption.
Qed.
End Runs.

(** ** Reading a trace *)

(** Break a membership in an explicit trace into its cases, dropping the
    events of another kind. *)
Ltac in_trace :=
  repeat match goal with
         | H : In _ [] |- _ => destruct H
         | H : In _ (_ :: _) |- _ =>
             destruct H as [H|H]; [try discriminate H |]
         end.

(** Case analysis on the path the run took; the hypotheses about the run
    must be in the goal. *)
Ltac by_shape w a environ :=
  destruct (invoke_shape w a environ); cbn [fst snd exit_code].

Lemma probe_issued_inv w a environ u :
  In (EGet u) (fst (invoke w a environ)) ->
  u = url a /\ isdigit (args.model a) = true /\
  truthy (token a environ) = true.
Proof.
  by_shape w a environ; intros Hin; in_trace;
    injection Hin as <-; auto.
Qed.

Lemma download_reached_inv w a environ argv :
  In (ERun argv) (fst (invoke w a environ)) ->
  argv = wget_argv a environ /\
  exists response,
    isdigit (args.model a) = true /\ truthy (token a environ) = true /\
    requests_get w (url a) = Returns response /\ status_code response = 200.
Proof.
  by_shape w a environ; intros Hin; in_trace;
    injection Hin as <-; eauto 6.
Qed.

(** ** The input checks *)

(** What makes [isdigit] fail, said of the string itself. *)
Lemma isdigit_false_intro s :
  s = [] \/ Exists (fun c => isdigit_char c = false) s ->
  isdigit s = false.
Proof.
  intros Hbad. destruct (isdigit s) eqn:Hs; [exfalso | reflexivity].
  apply isdigit_spec in Hs as [Hne Hall].
  destruct Hbad as [Hnil | Hex]; [exact (Hne Hnil) |].
  apply List.Exists_exists in Hex as (c & Hin & Hc).
  rewrite List.Forall_forall in Hall. rewrite (Hall c Hin) in Hc.
  discriminate Hc.
Qed.

(** C5 as stated does not hold when non-digit means outside [^[0-9]+$]:
    the model ID U+00B2 (superscript two) is such a string, and with
    [--token k] and a probe answering 200 the run prints nothing and
    makes both network calls. *)
Lemma superscript_two_not_rejected :
  ~ (forall w a environ,
       matches_digits_regex (args.model a) = false ->
       prints (fst (invoke w a environ)) = [message InvalidInput] /\
       exit_code (snd (invoke w a environ)) = Some 1 /\
       gets (fst (invoke w a environ)) = [] /\
       invocations (fst (invoke w a environ)) = []).
Proof.
  intros H.
  destruct (H (constant_world 200 0) (args.mk [178%N] (Some (lit "k"))) ∅)
    as (_ & _ & Hget & _).
  - vm_compute. reflexivity.
  - vm_compute in Hget. discriminate Hget.
Qed.

(** C5, amended. A model ID on which [str.isdigit] is false, that is an
    empty one or one holding a character outside Unicode's digit class,
    ends the run with the [InvalidInput] message and exit code 1; the
    trace holds nothing but that message, so neither the metadata probe
    nor the download tool is called. *)
Theorem non_digit_model_rejected w a environ :
  args.model a = [] \/
  Exists (fun c => isdigit_char c = false) (args.model a) ->
  prints (fst (invoke w a environ)) = [message InvalidInput] /\
  exit_code (snd (invoke w a environ)) = Some 1 /\
  gets (fst (invoke w a environ)) = [] /\
  invocations (fst (invoke w a environ)) = [].
Proof.
  intros Hbad. apply isdigit_false_intro in Hbad.
  rewrite run_invalid by exact Hbad. repeat split.
Qed.

Lemma non_digit_model_rejected_witness :
  let a := args.mk (lit "12a") (Some (lit "secret")) in
  prints (fst (invoke (constant_world 200 0) a ∅)) = [message InvalidInput] /\
  exit_code (snd (invoke (constant_world 200 0) a ∅)) = Some 1 /\
  gets (fst (invoke (constant_world 200 0) a ∅)) = [] /\
  invocations (fst (invoke (constant_world 200 0) a ∅)) = [].
Proof.
  intros a. apply (non_digit_model_rejected (constant_world 200 0) a ∅).
  right. apply List.Exists_exists. exists 97%N.
  split; [vm_compute; auto | vm_compute; reflexivity].
Defined.

(** C6. With a digit-string model ID, no [--token] and no
    [civitai_token] in the environment, the run ends with the
    [MissingCredential] message and exit code 1, and no network call is
    made. *)
Theorem missing_token_rejected w a (environ : gmap string pystr) :
  isdigit (args.model a) = true ->
  args.token a = None ->
  environ !! "civitai_token" = None ->
  prints (fst (invoke w a environ)) = [message MissingCredential] /\
  exit_code (snd (invoke w a environ)) = Some 1 /\
  gets (fst (invoke w a environ)) = [] /\
  invocations (fst (invoke w a environ)) = [].
Proof.
  intros Hm Harg Henv.
  rewrite run_missing; [repeat split | exact Hm |].
  rewrite token_env_unset by exact Henv. rewrite Harg. reflexivity.
Qed.

Lemma missing_token_rejected_witness :
  let a := args.mk (lit "12345") None in
  prints (fst (invoke (constant_world 200 0) a ∅)) = [message MissingCredential] /\
  exit_code (snd (invoke (constant_world 200 0) a ∅)) = Some 1 /\
  gets (fst (invoke (constant_world 200 0) a ∅)) = [] /\
  invocations (fst (invoke (constant_world 200 0) a ∅)) = [].
Proof.
  intros a. apply (missing_token_rejected (constant_world 200 0) a ∅).
  - vm_compute. reflexivity.
  - reflexivity.
  - apply lookup_empty.
Defined.

(** C9 as stated does not hold when all-digit means [^[0-9]+$]: with
    the model ID U+00B2 (superscript two), no [--token] and no
    [civitai_token], the failure printed is [MissingCredential]; so the
    token check is reached by a model ID outside [^[0-9]+$], and it is
    its message that is reported. *)
Lemma superscript_two_reaches_token_check :
  ~ (forall w a (environ : gmap string pystr),
       matches_digits_regex (args.model a) = false ->
       args.token a = None -> environ !! "civitai_token" = None ->
       prints (fst (invoke w a environ)) = [message InvalidInput] /\
       ~ In (EPrint (message MissingCredential)) (fst (invoke w a environ)))
  /\
  ~ (forall w a (environ : gmap string pystr),
       In (EPrint (message MissingCredential)) (fst (invoke w a environ)) ->
       matches_digits_regex (args.model a) = true).
Proof.
  split; intros H.
  - destruct (H (constant_world 200 0) (args.mk [178%N] None) ∅)
      as [_ Hnot]; try reflexivity.
    apply Hnot. vm_compute. left. reflexivity.
  - specialize (H (constant_world 200 0) (args.mk [178%N] None) ∅).
    assert (Hre : matches_digits_regex [178%N] = true)
      by (apply H; vm_compute; left; reflexivity).
    vm_compute in Hre. discriminate Hre.
Qed.

(** C9, amended. The model check comes first: when [str.isdigit] is
    false on the model ID (it is empty or holds a character outside
    Unicode's digit class) and no token resolves either, the failure
    printed is [InvalidInput] and not [MissingCredential]; and whenever
    [MissingCredential] is printed the model ID has passed that check:
    it is non-empty and all its characters are in the digit class. *)
Theorem model_check_before_token_check w a environ :
  (args.model a = [] \/
   Exists (fun c => isdigit_char c = false) (args.model a) ->
   truthy (token a environ) = false ->
   prints (fst (invoke w a environ)) = [message InvalidInput] /\
   ~ In (EPrint (message MissingCredential)) (fst (invoke w a environ))) /\
  (In (EPrint (message MissingCredential)) (fst (invoke w a environ)) ->
   args.model a <> [] /\
   Forall (fun c => isdigit_char c = true) (args.model a)).
Proof.
  split.
  - intros Hbad _. apply isdigit_false_intro in Hbad.
    rewrite run_invalid by exact Hbad. split; [reflexivity |].
    cbn [fst]. intros Hin. in_trace.
  - intros Hin. apply isdigit_spec. revert Hin.
    by_shape w a environ; intros Hin; in_trace; auto.
Qed.

Lemma model_check_before_token_check_witness :
  let a := args.mk (lit "v1.5") None in
  prints (fst (invoke (constant_world 200 0) a ∅)) = [message InvalidInput] /\
  ~ In (EPrint (message MissingCredential))
       (fst (invoke (constant_world 200 0) a ∅)).
Proof.
  intros a.
  apply (proj1 (model_check_before_token_check (constant_world 200 0) a ∅)).
  - right. apply List.Exists_exists. exists 118%N.
    split; [vm_compute; auto | vm_compute; reflexivity].
  - vm_compute. reflexivity.
Defined.

(** ** The metadata probe *)



(** ** The download *)

(** C3. When the metadata probe was made and answered 200, the download
    tool is called exactly once: [wget], then the download URL with the
    model ID and the resolved token interpolated as they are, then
    [--content-disposition], which makes it keep the file name the
    server suggests. *)
Theorem probe_ok_runs_wget_once w a environ u response :
  In (EGet u) (fst (invoke w a environ)) ->
  requests_get w u = Returns response ->
  status_code response = 200 ->
  exists tok,
    token a environ = Some tok /\
    invocations (fst (invoke w a environ)) =
      [[lit "wget";
        lit "https://civitai.com/api/download/models/" ++ args.model a
          ++ lit "?type=Model&format=SafeTensor&token=" ++ tok;
        lit "--content-disposition"]].
Proof.
  intros Hin Hget Hstatus.
  destruct (probe_issued_inv _ _ _ _ Hin) as (-> & Hm & Ht).
  destruct (truthy_inv _ Ht) as (tok & Htok & _).
  exists tok. split; [exact Htok |].
  assert (Hargv : wget_argv a environ =
            [lit "wget";
             lit "https://civitai.com/api/download/models/" ++ args.model a
               ++ lit "?type=Model&format=SafeTensor&token=" ++ tok;
             lit "--content-disposition"])
    by (unfold wget_argv, download_url; rewrite Htok; reflexivity).
  rewrite <- Hargv. clear Hargv Hin.
  by_shape w a environ; try congruence; reflexivity.
Qed.

Lemma probe_ok_runs_wget_once_witness :
  let a := args.mk (lit "12345") (Some (lit "secret")) in
  exists tok,
    token a ∅ = Some tok /\
    invocations (fst (invoke (constant_world 200 0) a ∅)) =
      [[lit "wget";
        lit "https://civitai.com/api/download/models/" ++ args.model a
          ++ lit "?type=Model&format=SafeTensor&token=" ++ tok;
        lit "--content-disposition"]].
Proof.
  intros a.
  apply (probe_ok_runs_wget_once (constant_world 200 0) a ∅
           (lit "https://civitai.com/api/v1/model-versions/12345")
           {| status_code := 200 |}).
  - vm_compute. left. reflexivity.
  - reflexivity.
  - reflexivity.
Defined.

(** C7. When the download tool was called and ended with a non-zero
    status, the run prints the [DownloadFailed] message and ends with
    exit code 1. *)
Theorem wget_failure_reported w a environ argv result :
  In (ERun argv) (fst (invoke w a environ)) ->
  subprocess_run w argv = Returns result ->
  returncode result <> 0 ->
  prints (fst (invoke w a environ)) = [message DownloadFailed] /\
  exit_code (snd (invoke w a environ)) = Some 1.
Proof.
  intros Hin Hrun Hrc.
  destruct (download_reached_inv _ _ _ _ Hin) as (-> & r & Hm & Ht & Hg & Hs).
  clear Hin.
  by_shape w a environ; try congruence. split; reflexivity.
Qed.

Lemma wget_failure_reported_witness :
  let a := args.mk (lit "12345") (Some (lit "secret")) in
  prints (fst (invoke (constant_world 200 8) a ∅)) = [message DownloadFailed] /\
  exit_code (snd (invoke (constant_world 200 8) a ∅)) = Some 1.
Proof.
  intros a.
  apply (wget_failure_reported (constant_world 200 8) a ∅
           (wget_argv a ∅) {| returncode := 8 |}).
  - vm_compute. right. left. reflexivity.
  - reflexivity.
  - cbn. lia.
Defined.

(** C8. When the download tool was called and ended with status zero,
    the process ends with exit code 0. *)
Theorem wget_success_exits_zero w a environ argv result :
  In (ERun argv) (fst (invoke w a environ)) ->
  subprocess_run w argv = Returns result ->
  returncode result = 0 ->
  exit_code (snd (invoke w a environ)) = Some 0.
Proof.
  intros Hin Hrun Hrc.
  destruct (download_reached_inv _ _ _ _ Hin) as (-> & r & Hm & Ht & Hg & Hs).
  clear Hin.
  by_shape w a environ; congruence.
Qed.

Lemma wget_success_exits_zero_witness :
  let a := args.mk (lit "12345") (Some (lit "secret")) in
  exit_code (snd (invoke (constant_world 200 0) a ∅)) = Some 0.
Proof.
  intros a.
  apply (wget_success_exits_zero (constant_world 200 0) a ∅
           (wget_argv a ∅) {| returncode := 0 |}).
  - vm_compute. right. left. reflexivity.
  - reflexivity.
  - reflexivity.
Defined.

(** ** Where the token comes from *)

(** C1 as stated does not hold: with model ID [1], [--token A] and
    [civitai_token=B] in the environment, and a probe answering 200, the
    URL handed to the download tool ends in [token=B], not [token=A]. *)
Lemma explicit_token_not_preferred :
  ~ (forall w a (environ : gmap string pystr) t e response,
       isdigit (args.model a) = true ->
       args.token a = Some t -> t <> [] ->
       environ !! "civitai_token" = Some e -> e <> [] ->
       requests_get w (url a) = Returns response ->
       status_code response = 200 ->
       invocations (fst (invoke w a environ)) =
         [[lit "wget";
           lit "https://civitai.com/api/download/models/" ++ args.model a
             ++ lit "?type=Model&format=SafeTensor&token=" ++ t;
           lit "--content-disposition"]]).
Proof.
  intros H.
  specialize (H (constant_world 200 0)
                (args.mk (lit "1") (Some (lit "A")))
                (<["civitai_token" := lit "B"]> ∅)
                (lit "A") (lit "B") {| status_code := 200 |}).
  assert (Hurl : invocations
                   (fst (invoke (constant_world 200 0)
                           (args.mk (lit "1") (Some (lit "A")))
                           (<["civitai_token" := lit "B"]> ∅))) =
                 [[lit "wget";
                   lit "https://civitai.com/api/download/models/1?type=Model&format=SafeTensor&token=B";
                   lit "--content-disposition"]])
    by (vm_compute; reflexivity).
  rewrite Hurl in H.
  assert (Hbad : [[lit "wget";
                   lit "https://civitai.com/api/download/models/1?type=Model&format=SafeTensor&token=B";
                   lit "--content-disposition"]] =
                 [[lit "wget";
                   lit "https://civitai.com/api/download/models/1?type=Model&format=SafeTensor&token=A";
                   lit "--content-disposition"]]).
  { apply H; try reflexivity; vm_compute; discriminate. }
  vm_compute in Hbad. discriminate Hbad.
Qed.

(** C1, amended. When both [--token] and the environment variable
    [civitai_token] are set, the token the program uses, the one
    interpolated into the download URL, is the value of the environment
    variable: the environment takes precedence over the explicit
    argument. *)
Theorem environment_token_preferred
    w a (environ : gmap string pystr) t e response :
  isdigit (args.model a) = true ->
  args.token a = Some t ->
  environ !! "civitai_token" = Some e -> e <> [] ->
  requests_get w (url a) = Returns response ->
  status_code response = 200 ->
  token a environ = Some e /\
  invocations (fst (invoke w a environ)) =
    [[lit "wget";
      lit "https://civitai.com/api/download/models/" ++ args.model a
        ++ lit "?type=Model&format=SafeTensor&token=" ++ e;
      lit "--content-disposition"]].
Proof.
  intros Hm _ Henv Hne Hget Hstatus.
  pose proof (token_env_set a environ e Henv) as Htok.
  split; [exact Htok |].
  assert (Ht : truthy (token a environ) = true)
    by (rewrite Htok; apply truthy_Some, Hne).
  assert (Hargv : wget_argv a environ =
            [lit "wget";
             lit "https://civitai.com/api/download/models/" ++ args.model a
               ++ lit "?type=Model&format=SafeTensor&token=" ++ e;
             lit "--content-disposition"])
    by (unfold wget_argv, download_url; rewrite Htok; reflexivity).
  rewrite <- Hargv. clear Hargv.
  by_shape w a environ; try congruence; reflexivity.
Qed.

Lemma environment_token_preferred_witness :
  let a := args.mk (lit "1") (Some (lit "A")) in
  let environ : gmap string pystr := <["civitai_token" := lit "B"]> ∅ in
  token a environ = Some (lit "B") /\
  invocations (fst (invoke (constant_world 200 0) a environ)) =
    [[lit "wget";
      lit "https://civitai.com/api/download/models/" ++ args.model a
        ++ lit "?type=Model&format=SafeTensor&token=" ++ lit "B";
      lit "--content-disposition"]].
Proof.
  intros a environ.
  apply (environment_token_preferred (constant_world 200 0) a environ
           (lit "A") (lit "B") {| status_code := 200 |}).
  - vm_compute. reflexivity.
  - reflexivity.
  - apply lookup_insert_eq.
  - vm_compute. discriminate.
  - reflexivity.
  - reflexivity.
Defined.

(** C10 as stated does not hold: with model ID [abc], [--token tok] and
    [civitai_token] set to the empty string, the failure printed is
    [InvalidInput], not [MissingCredential]. *)
Lemma empty_environment_token_invalid_model :
  ~ (forall w a (environ : gmap string pystr) t,
       environ !! "civitai_token" = Some [] ->
       args.token a = Some t -> t <> [] ->
       prints (fst (invoke w a environ)) = [message MissingCredential] /\
       exit_code (snd (invoke w a environ)) = Some 1).
Proof.
  intros H.
  destruct (H (constant_world 200 0)
              (args.mk (lit "abc") (Some (lit "tok")))
              (<["civitai_token" := []]> ∅)
              (lit "tok")) as [Hprint _].
  - apply lookup_insert_eq.
  - reflexivity.
  - vm_compute. discriminate.
  - vm_compute in Hprint. discriminate Hprint.
Qed.

(** C10, amended. For a digit-string model ID, when [civitai_token] is
    set to the empty string the run fails with [MissingCredential] and
    exit code 1 even if a non-empty [--token] is given: the environment
    value replaces the argument before the emptiness check. *)
Theorem empty_environment_token_masks_argument
    w a (environ : gmap string pystr) t :
  isdigit (args.model a) = true ->
  environ !! "civitai_token" = Some [] ->
  args.token a = Some t -> t <> [] ->
  prints (fst (invoke w a environ)) = [message MissingCredential] /\
  exit_code (snd (invoke w a environ)) = Some 1.
Proof.
  intros Hm Henv _ _.
  rewrite run_missing; [split; reflexivity | exact Hm |].
  rewrite (token_env_set a environ [] Henv). reflexivity.
Qed.

Lemma empty_environment_token_masks_argument_witness :
  let a := args.mk (lit "12345") (Some (lit "tok")) in
  let environ : gmap string pystr := <["civitai_token" := []]> ∅ in
  prints (fst (invoke (constant_world 200 0) a environ))
    = [message MissingCredential] /\
  exit_code (snd (invoke (constant_world 200 0) a environ)) = Some 1.
Proof.
  intros a environ.
  apply (empty_environment_token_masks_argument (constant_world 200 0)
           a environ (lit "tok")).
  - vm_compute. reflexivity.
  - apply lookup_insert_eq.
  - reflexivity.
  - vm_compute. discriminate.
Defined.

(** ** Which model IDs pass *)

(** C2 as stated does not hold: the one-character model ID U+00B2
    (superscript two) passes the model check, and it is not a string of
    the digits 0-9. *)
Lemma superscript_two_accepted :
  ~ (forall w a environ,
       ~ rejects_model w a environ <->
       matches_digits_regex (args.model a) = true).
Proof.
  intros H.
  destruct (H (constant_world 200 0) (args.mk [178%N] None) ∅) as [Hacc _].
  assert (Hre : matches_digits_regex [178%N] = true).
  { apply Hacc. unfold rejects_model. intros Hrej.
    vm_compute in Hrej. discriminate Hrej. }
  vm_compute in Hre. discriminate Hre.
Qed.

(** C2, amended. The program accepts a model ID exactly when
    [str.isdigit] does: the string is non-empty and each of its
    characters is in Unicode's digit class.  Every string of the digits
    0-9 is accepted, and for a string of ASCII characters acceptance is
    the same as matching [^[0-9]+$]. *)
Theorem model_accepted_iff_isdigit w a environ :
  (~ rejects_model w a environ <->
   args.model a <> [] /\
   Forall (fun c => isdigit_char c = true) (args.model a)) /\
  (matches_digits_regex (args.model a) = true ->
   ~ rejects_model w a environ) /\
  (Forall (fun c => (c < 128)%N) (args.model a) ->
   (~ rejects_model w a environ <->
    matches_digits_regex (args.model a) = true)).
Proof.
  assert (Hacc : ~ rejects_model w a environ <->
                 isdigit (args.model a) = true).
  { unfold rejects_model. split.
    - intros Hn. destruct (isdigit (args.model a)) eqn:Hm; [reflexivity |].
      exfalso. apply Hn, run_invalid, Hm.
    - intros Hm. by_shape w a environ; try congruence; discriminate. }
  rewrite Hacc. split; [apply isdigit_spec |]. split.
  - apply matches_digits_regex_isdigit.
  - intros Hascii. split.
    + apply isdigit_ascii_matches, Hascii.
    + apply matches_digits_regex_isdigit.
Qed.

Lemma model_accepted_iff_isdigit_witness :
  ~ rejects_model (constant_world 200 0) (args.mk (lit "12345") None) ∅.
Proof.
  apply (proj1 (proj2 (model_accepted_iff_isdigit (constant_world 200 0)
                         (args.mk (lit "12345") None) ∅))).
  vm_compute. reflexivity.
Defined.

(** * Further properties of the run *)

Lemma singleton_inj {A : Type} (x y : A) : [x] = [y] -> x = y.
Proof. intros H. injection H as H. exact H. Qed.

Lemma isdigit_ascii_chars s c :
  isdigit s = true -> In c s -> (c < 128)%N -> ascii_digit c = true.
Proof.
  rewrite isdigit_spec, List.Forall_forall. intros [_ Hall] Hin Hc.
  rewrite <- isdigit_char_ascii by exact Hc. apply Hall, Hin.
Qed.

(** ** Exit status *)

(** X1. The process ends with status 0 exactly when every step went
    through: the model ID passed [isdigit], a non-empty token was
    resolved, the probe answered 200 and the download tool returned 0. *)
Theorem exit_zero_iff_download_succeeded w a environ :
  exit_code (snd (invoke w a environ)) = Some 0 <->
  isdigit (args.model a) = true /\
  truthy (token a environ) = true /\
  exists response result,
    requests_get w (url a) = Returns response /\
    status_code response = 200 /\
    subprocess_run w (wget_argv a environ) = Returns result /\
    returncode result = 0.
Proof.
  split.
  - by_shape w a environ; intros Hexit; try discriminate Hexit.
    eauto 10.
  - intros (Hm & Ht & response & result & Hg & Hs & Hr & Hc).
    erewrite run_success by eassumption. reflexivity.
Qed.

Lemma exit_zero_iff_download_succeeded_witness :
  exit_code (snd (invoke (constant_world 200 0)
                    (args.mk (lit "77") (Some (lit "k"))) ∅)) = Some 0.
Proof.
  apply (proj2 (exit_zero_iff_download_succeeded (constant_world 200 0)
                  (args.mk (lit "77") (Some (lit "k"))) ∅)).
  split; [vm_compute; reflexivity |].
  split; [vm_compute; reflexivity |].
  exists {| status_code := 200 |}, {| returncode := 0 |}.
  repeat split.
Defined.

(** ** Messages *)

(** X3. A run prints at most one message; when it prints one, it is one
    of the four error messages and the run ends in [sys.exit(1)]. *)
Theorem at_most_one_message w a environ :
  prints (fst (invoke w a environ)) = [] \/
  exists k,
    prints (fst (invoke w a environ)) = [message k] /\
    snd (invoke w a environ) = Exited 1.
Proof. by_shape w a environ; eauto. Qed.

(** X4. The message printed tells which step failed, and only that step
    prints it. *)
Theorem message_identifies_failure w a environ :
  (prints (fst (invoke w a environ)) = [message InvalidInput] <->
   isdigit (args.model a) = false) /\
  (prints (fst (invoke w a environ)) = [message MissingCredential] <->
   isdigit (args.model a) = true /\ truthy (token a environ) = false) /\
  (prints (fst (invoke w a environ)) = [message MetadataLookupFailed] <->
   isdigit (args.model a) = true /\ truthy (token a environ) = true /\
   exists response,
     requests_get w (url a) = Returns response /\
     status_code response <> 200) /\
  (prints (fst (invoke w a environ)) = [message DownloadFailed] <->
   isdigit (args.model a) = true /\ truthy (token a environ) = true /\
   exists response result,
     requests_get w (url a) = Returns response /\
     status_code response = 200 /\
     subprocess_run w (wget_argv a environ) = Returns result /\
     returncode result <> 0).
Proof.
  assert (Hkind : forall k k', [message k] = [message k'] -> k = k')
    by (intros k k' H; apply message_inj, singleton_inj, H).
  repeat apply conj.
  all: by_shape w a environ; intros Hp.
  all: try discriminate Hp; try (apply Hkind in Hp; discriminate Hp).
  all: try reflexivity; try (repeat split; congruence); eauto 10.
  all: repeat match goal with
              | H : exists _, _ |- _ => destruct H as [? H]
              | H : _ /\ _ |- _ => destruct H
              end.
  all: congruence.
Qed.

Lemma message_identifies_failure_witness :
  prints (fst (invoke (constant_world 500 0)
                 (args.mk (lit "77") (Some (lit "k"))) ∅))
    = [message MetadataLookupFailed].
Proof.
  apply (proj2 (proj1 (proj2 (proj2
           (message_identifies_failure (constant_world 500 0)
              (args.mk (lit "77") (Some (lit "k"))) ∅))))).
  split; [vm_compute; reflexivity |].
  split; [vm_compute; reflexivity |].
  exists {| status_code := 500 |}. split; [reflexivity | cbn; lia].
Defined.

(** ** Network calls *)

(** X5. Nothing is retried: a run makes at most one metadata request and
    at most one call of the download tool. *)
Theorem no_retry w a environ :
  (length (gets (fst (invoke w a environ))) <= 1)%nat /\
  (length (invocations (fst (invoke w a environ))) <= 1)%nat.
Proof. by_shape w a environ; cbn; lia. Qed.

(** X6. The download tool is only ever called right after a metadata
    probe of the same model ID that answered 200, and with the [wget]
    command line of line 32. *)
Theorem download_only_after_probe_ok w a environ argv :
  In (ERun argv) (fst (invoke w a environ)) ->
  argv = [lit "wget"; download_url a environ; lit "--content-disposition"] /\
  exists response rest,
    fst (invoke w a environ) = EGet (url a) :: ERun argv :: rest /\
    requests_get w (url a) = Returns response /\
    status_code response = 200.
Proof.
  fold (wget_argv a environ).
  by_shape w a environ; intros Hin; in_trace;
    injection Hin as <-; eauto 6.
Qed.

Lemma download_only_after_probe_ok_witness :
  let a := args.mk (lit "77") (Some (lit "k")) in
  let w := constant_world 200 3 in
  exists response rest,
    fst (invoke w a ∅) = EGet (url a) :: ERun (wget_argv a ∅) :: rest /\
    requests_get w (url a) = Returns response /\
    status_code response = 200.
Proof.
  intros a w.
  apply (download_only_after_probe_ok w a ∅ (wget_argv a ∅)).
  vm_compute. right. left. reflexivity.
Defined.

(** X7. The script catches nothing: when [requests.get] raises, the run
    stops there with the exception uncaught, prints none of its messages
    and does not call the download tool. *)
Theorem probe_exception_uncaught w a environ u exn :
  In (EGet u) (fst (invoke w a environ)) ->
  requests_get w u = Raises exn ->
  invoke w a environ = ([EGet u], Uncaught exn) /\
  prints (fst (invoke w a environ)) = [] /\
  invocations (fst (invoke w a environ)) = [].
Proof.
  intros Hin Hraise.
  destruct (probe_issued_inv _ _ _ _ Hin) as (-> & Hm & Ht).
  rewrite (run_probe_raises w a environ exn Hm Ht Hraise).
  repeat split.
Qed.

Lemma probe_exception_uncaught_witness :
  let a := args.mk (lit "77") (Some (lit "k")) in
  let w := {| requests_get := fun _ => Raises "ConnectionError";
              subprocess_run := fun _ => Returns {| returncode := 0 |} |} in
  invoke w a ∅ = ([EGet (url a)], Uncaught "ConnectionError") /\
  prints (fst (invoke w a ∅)) = [] /\
  invocations (fst (invoke w a ∅)) = [].
Proof.
  intros a w.
  apply (probe_exception_uncaught w a ∅ (url a) "ConnectionError").
  - vm_compute. left. reflexivity.
  - reflexivity.
Defined.

(** X8. Likewise when [subprocess.run] raises (no [wget] on the path):
    the run stops with the exception uncaught right after the probe, and
    the [DownloadFailed] message is not printed. *)
Theorem wget_exception_uncaught w a environ argv exn :
  In (ERun argv) (fst (invoke w a environ)) ->
  subprocess_run w argv = Raises exn ->
  invoke w a environ = ([EGet (url a); ERun argv], Uncaught exn) /\
  prints (fst (invoke w a environ)) = [].
Proof.
  intros Hin Hraise.
  destruct (download_reached_inv _ _ _ _ Hin)
    as (-> & r & Hm & Ht & Hg & Hs).
  rewrite (run_wget_raises w a environ r exn Hm Ht Hg Hs Hraise).
  repeat split.
Qed.

Lemma wget_exception_uncaught_witness :
  let a := args.mk (lit "77") (Some (lit "k")) in
  let w := {| requests_get := fun _ => Returns {| status_code := 200 |};
              subprocess_run := fun _ => Raises "FileNotFoundError" |} in
  invoke w a ∅
    = ([EGet (url a); ERun (wget_argv a ∅)], Uncaught "FileNotFoundError") /\
  prints (fst (invoke w a ∅)) = [].
Proof.
  intros a w.
  apply (wget_exception_uncaught w a ∅ (wget_argv a ∅) "FileNotFoundError").
  - vm_compute. right. left. reflexivity.
  - reflexivity.
Defined.

(** ** The token, continued *)

(** X9. The fallback: when [civitai_token] is not in the environment, a
    non-empty [--token] is the token interpolated into the download
    URL. *)
Theorem argument_token_used_when_unset
    w a (environ : gmap string pystr) t response :
  isdigit (args.model a) = true ->
  environ !! "civitai_token" = None ->
  args.token a = Some t -> t <> [] ->
  requests_get w (url a) = Returns response ->
  status_code response = 200 ->
  invocations (fst (invoke w a environ)) =
    [[lit "wget";
      lit "https://civitai.com/api/download/models/" ++ args.model a
        ++ lit "?type=Model&format=SafeTensor&token=" ++ t;
      lit "--content-disposition"]].
Proof.
  intros Hm Henv Harg Hne Hget Hstatus.
  assert (Htok : token a environ = Some t)
    by (rewrite token_env_unset by exact Henv; exact Harg).
  assert (Ht : truthy (token a environ) = true)
    by (rewrite Htok; apply truthy_Some, Hne).
  assert (Hargv : wget_argv a environ =
            [lit "wget";
             lit "https://civitai.com/api/download/models/" ++ args.model a
               ++ lit "?type=Model&format=SafeTensor&token=" ++ t;
             lit "--content-disposition"])
    by (unfold wget_argv, download_url; rewrite Htok; reflexivity).
  rewrite <- Hargv. clear Hargv.
  by_shape w a environ; try congruence; reflexivity.
Qed.

Lemma argument_token_used_when_unset_witness :
  let a := args.mk (lit "77") (Some (lit "k")) in
  let environ : gmap string pystr := <["HOME" := lit "/root"]> ∅ in
  invocations (fst (invoke (constant_world 200 0) a environ)) =
    [[lit "wget";
      lit "https://civitai.com/api/download/models/" ++ args.model a
        ++ lit "?type=Model&format=SafeTensor&token=" ++ lit "k";
      lit "--content-disposition"]].
Proof.
  intros a environ.
  apply (argument_token_used_when_unset (constant_world 200 0) a environ
           (lit "k") {| status_code := 200 |}).
  - vm_compute. reflexivity.
  - vm_compute. reflexivity.
  - reflexivity.
  - vm_compute. discriminate.
  - reflexivity.
  - reflexivity.
Defined.

(** X10. For a model ID that passed its check, [MissingCredential] is
    reported exactly when the variable is set to the empty string, or is
    not set and [--token] is absent or the empty string. *)
Theorem missing_credential_iff w a (environ : gmap string pystr) :
  isdigit (args.model a) = true ->
  (prints (fst (invoke w a environ)) = [message MissingCredential] <->
   environ !! "civitai_token" = Some [] \/
   (environ !! "civitai_token" = None /\
    (args.token a = None \/ args.token a = Some []))).
Proof.
  intros Hm.
  assert (Hiff : prints (fst (invoke w a environ)) = [message MissingCredential]
                 <-> isdigit (args.model a) = true /\
                     truthy (token a environ) = false).
  { split.
    - by_shape w a environ; intros Hp; try discriminate Hp;
        try (apply singleton_inj, message_inj in Hp; discriminate Hp).
      split; assumption.
    - intros [_ Ht]. rewrite run_missing by assumption. reflexivity. }
  rewrite Hiff. clear Hiff.
  unfold token, getenv.
  destruct (environ !! "civitai_token") as [[|c e]|] eqn:Henv.
  - split; [left; reflexivity | intros _; split; [exact Hm | reflexivity]].
  - split; [intros [_ Hf]; discriminate Hf |].
    intros [Hf | [Hf _]]; discriminate Hf.
  - destruct (args.token a) as [[|c t]|].
    + split; [right; auto | intros _; split; [exact Hm | reflexivity]].
    + split; [intros [_ Hf]; discriminate Hf |].
      intros [Hf | [_ [Hf | Hf]]]; discriminate Hf.
    + split; [right; auto | intros _; split; [exact Hm | reflexivity]].
Qed.

Lemma missing_credential_iff_witness :
  prints (fst (invoke (constant_world 200 0)
                 (args.mk (lit "77") (Some [])) ∅))
    = [message MissingCredential].
Proof.
  assert (Hm : isdigit (lit "77") = true) by (vm_compute; reflexivity).
  apply (proj2 (missing_credential_iff (constant_world 200 0)
                  (args.mk (lit "77") (Some [])) ∅ Hm)).
  right. split; [apply lookup_empty | right; reflexivity].
Defined.

(** X11. [civitai_token] is the only variable of the environment the
    script itself reads: for two environments that agree on it the
    script is the same, check for check and call for call with the same
    arguments.  What the HTTP library and the child process answer is
    the world's part, and may depend on other variables. *)
Theorem other_variables_not_read a (environ environ' : gmap string pystr) :
  environ !! "civitai_token" = environ' !! "civitai_token" ->
  main a environ = main a environ'.
Proof.
  intros Hsame.
  unfold main, download_url, token, getenv.
  rewrite Hsame. reflexivity.
Qed.

Lemma other_variables_not_read_witness :
  let a := args.mk (lit "77") (Some (lit "k")) in
  main a (<["PATH" := lit "/usr/bin"]> (<["HOME" := lit "/root"]> ∅))
  = main a ∅.
Proof.
  intros a.
  apply (other_variables_not_read a).
  vm_compute. reflexivity.
Defined.

(** X12. Once [civitai_token] is set, [--token] has no effect at all:
    two command lines with the same model ID give the same run, whatever
    their [--token]. *)
Theorem argument_token_ignored_when_set
    w a a' (environ : gmap string pystr) e :
  environ !! "civitai_token" = Some e ->
  args.model a = args.model a' ->
  invoke w a environ = invoke w a' environ.
Proof.
  intros Henv Hmodel.
  unfold invoke, main, url, download_url, token, getenv.
  rewrite Henv, Hmodel. reflexivity.
Qed.

Lemma argument_token_ignored_when_set_witness :
  let environ : gmap string pystr := <["civitai_token" := lit "B"]> ∅ in
  invoke (constant_world 200 0) (args.mk (lit "77") (Some (lit "A"))) environ
  = invoke (constant_world 200 0) (args.mk (lit "77") None) environ.
Proof.
  intros environ.
  apply (argument_token_ignored_when_set (constant_world 200 0)
           (args.mk (lit "77") (Some (lit "A"))) (args.mk (lit "77") None)
           environ (lit "B")).
  - apply lookup_insert_eq.
  - reflexivity.
Defined.

(** ** The model ID, continued *)

(** X13. An empty model ID, and one holding any ASCII character other
    than [0-9] (a sign, a decimal point, a blank, a newline, a letter),
    is turned down with [InvalidInput] and exit code 1 before any network
    call. *)
Theorem empty_or_ascii_non_digit_rejected w a environ :
  args.model a = [] \/
  (exists c, In c (args.model a) /\ (c < 128)%N /\ ascii_digit c = false) ->
  invoke w a environ = ([EPrint (message InvalidInput)], Exited 1).
Proof.
  intros Hbad. apply run_invalid.
  destruct (isdigit (args.model a)) eqn:Hm; [exfalso | reflexivity].
  destruct Hbad as [Hnil | (c & Hin & Hc & Hnd)].
  - rewrite Hnil in Hm. discriminate Hm.
  - rewrite (isdigit_ascii_chars _ _ Hm Hin Hc) in Hnd. discriminate Hnd.
Qed.

Lemma empty_or_ascii_non_digit_rejected_witness :
  invoke (constant_world 200 0) (args.mk (lit "-5") (Some (lit "k"))) ∅
  = ([EPrint (message InvalidInput)], Exited 1).
Proof.
  apply (empty_or_ascii_non_digit_rejected (constant_world 200 0)
           (args.mk (lit "-5") (Some (lit "k"))) ∅).
  right. exists 45%N. split; [left; reflexivity |].
  split; [reflexivity | reflexivity].
Defined.

(** X14. Whenever a request is made, the model ID that went into its
    URL holds no ASCII character other than [0-9]: no URL delimiter
    ([/], [?], [#], [&], [=], [%]) and no blank can reach the path. *)
Theorem requested_model_has_no_ascii_delimiter w a environ u :
  In (EGet u) (fst (invoke w a environ)) ->
  u = lit "https://civitai.com/api/v1/model-versions/" ++ args.model a /\
  args.model a <> [] /\
  forall c, In c (args.model a) -> (c < 128)%N -> ascii_digit c = true.
Proof.
  intros Hin.
  destruct (probe_issued_inv _ _ _ _ Hin) as (-> & Hm & _).
  split; [reflexivity |]. split.
  - apply isdigit_spec in Hm. apply Hm.
  - intros c Hc Hascii. exact (isdigit_ascii_chars _ _ Hm Hc Hascii).
Qed.

Lemma requested_model_has_no_ascii_delimiter_witness :
  let a := args.mk (lit "77") (Some (lit "k")) in
  url a = lit "https://civitai.com/api/v1/model-versions/" ++ args.model a /\
  args.model a <> [] /\
  forall c, In c (args.model a) -> (c < 128)%N -> ascii_digit c = true.
Proof.
  intros a.
  apply (requested_model_has_no_ascii_delimiter (constant_world 404 0) a ∅).
  vm_compute. left. reflexivity.
Defined.
